(** * A sparse token board behind a command dispatcher

    Shallow embedding of [src/main.py]: the classes [Token], [Board],
    [Action] and [App], followed by the properties of the board
    operations and of [App.execute].

    Python objects are mutated in place and methods may raise; both are
    made explicit with a state-and-exception monad [M S A], where [S] is
    the object the method receives as [self].  The class [Position] of
    the source is never instantiated and has no counterpart here. *)

From Stdlib Require Import ZArith String Ascii List.
From stdpp Require Import base option list strings gmap fin_maps.

Local Open Scope Z_scope.
Local Open Scope string_scope.

(** ** Python values *)

(** The values that reach the board through a payload: [None], integers
    and strings.  On these three [==] and hashing are structural, so a
    tuple of two of them is a well-behaved dictionary key.  Values that
    cannot be hashed (a list as coordinate makes the assignment in
    [place_token] raise [TypeError]) and floats or booleans (equal, as
    keys, to the integers of the same value) are not in this type: what
    follows speaks of payloads made of these three kinds of values. *)
Inductive pyval : Type :=
  | VNone
  | VInt (n : Z)
  | VStr (s : string).

#[global] Instance pyval_eq_dec : EqDecision pyval.
Proof. solve_decision. Defined.

#[global] Instance pyval_countable : Countable pyval.
Proof.
  refine (inj_countable'
    (λ v, match v with
          | VNone => inl tt
          | VInt n => inr (inl n)
          | VStr s => inr (inr s)
          end)
    (λ c, match c with
          | inl _ => VNone
          | inr (inl n) => VInt n
          | inr (inr s) => VStr s
          end) _).
  intros v; destruct v; reflexivity.
Defined.

(** Python's [a == b] on the values above. *)
Definition py_eq (a b : pyval) : bool := bool_decide (a = b).

(** A coordinate is the tuple [(x, y)] used as dictionary key. *)
Abbreviation coord := (pyval * pyval)%type.

(** ** Exceptions *)

(** The key carried by a [KeyError]: a payload key or a coordinate. *)
Inductive pykey : Type :=
  | KStr (s : string)
  | KPos (p : coord).

Inductive exn : Type :=
  | KeyError (k : pykey)
  | AttributeError (attr : string)
  | TypeError.

Inductive result (A : Type) : Type :=
  | Ok (a : A)
  | Raise (e : exn).
Arguments Ok {A} a.
Arguments Raise {A} e.

#[global] Instance pykey_eq_dec : EqDecision pykey.
Proof. solve_decision. Defined.
#[global] Instance exn_eq_dec : EqDecision exn.
Proof. solve_decision. Defined.

(** ** Methods as state transformers that may raise *)

(** A method body run on [self : S]: the outcome together with the
    object as the body left it.  The object is returned on the
    exceptional path as well, since a Python exception does not undo
    the mutations made before it. *)
Definition M (S A : Type) : Type := S → result A * S.

Definition ret {S A} (a : A) : M S A := λ s, (Ok a, s).

Definition bind {S A B} (m : M S A) (k : A → M S B) : M S B :=
  λ s, match m s with
       | (Ok a, s') => k a s'
       | (Raise e, s') => (Raise e, s')
       end.

Definition raise {S A} (e : exn) : M S A := λ s, (Raise e, s).
Definition get_self {S} : M S S := λ s, (Ok s, s).
Definition put_self {S} (s' : S) : M S unit := λ _, (Ok tt, s').

Notation "x <- m ;; k" := (bind m (λ x, k))
  (at level 100, m at next level, right associativity).

(** [d[k]] on a dictionary: the value, or [KeyError(k)]. *)
Definition getitem {S} `{Countable K} {V} (tag : K → pykey)
    (d : gmap K V) (k : K) : M S V :=
  match d !! k with
  | Some v => ret v
  | None => raise (KeyError (tag k))
  end.

(** The keys a [for k in d] loop visits. *)
Definition dict_keys `{Countable K} {V} (d : gmap K V) : list K :=
  (map_to_list d).*1.

(** The line break of the string literal ["\n"]. *)
Definition nl : string := String "010"%char EmptyString.

(** ** class Token *)

Module Token.
Record t : Type := mk { value : pyval }.
End Token.

(** ** class Board *)

Module Board.

Record t : Type := mk {
  width : pyval;
  height : pyval;
  positions : gmap coord Token.t
}.

Definition __init__ (width height : pyval) : t :=
  {| width := width; height := height; positions := ∅ |}.

Definition set_positions (ps : gmap coord Token.t) (self : t) : t :=
  {| width := width self; height := height self; positions := ps |}.

(** [range(n)]: a [TypeError] unless [n] is an integer; empty when
    [n <= 0]. *)
Definition range (n : pyval) : M t (list Z) :=
  match n with
  | VInt n => ret (seqZ 0 n)
  | _ => raise TypeError
  end.

(** [s + " "] for a token value [s]: only a string can be
    concatenated with a string. *)
Definition add_space (v : pyval) : M t string :=
  match v with
  | VStr s => ret (s ++ " ")
  | _ => raise TypeError
  end.

(** The body of the inner loop of [__str__] for one cell. *)
Definition str_cell (row column : Z) (output : string) : M t string :=
  self <- get_self ;;
  let key := (VInt column, VInt row) in
  if bool_decide (key ∈ dom (positions self))
  then tok <- getitem KPos (positions self) key ;;
       cell <- add_space (Token.value tok) ;;
       ret (output ++ cell)
  else ret (output ++ ". ").

Fixpoint str_columns (row : Z) (columns : list Z) (output : string)
    : M t string :=
  match columns with
  | [] => ret output
  | column :: columns' =>
      output' <- str_cell row column output ;;
      str_columns row columns' output'
  end.

Fixpoint str_rows (rows : list Z) (output : string) : M t string :=
  match rows with
  | [] => ret output
  | row :: rows' =>
      self <- get_self ;;
      columns <- range (width self) ;;
      output' <- str_columns row columns output ;;
      str_rows rows' (output' ++ nl ++ nl)
  end.

Definition __str__ : M t string :=
  self <- get_self ;;
  rows <- range (height self) ;;
  str_rows rows EmptyString.

(** The loop of [get_token]: the first key equal to [(x, y)] ends the
    method with the value stored there; running out of keys returns
    [None]. *)
Fixpoint get_token_loop (x y : pyval) (keys : list coord) : M t pyval :=
  match keys with
  | [] => ret VNone
  | position :: keys' =>
      if py_eq x position.1 && py_eq y position.2
      then self <- get_self ;;
           tok <- getitem KPos (positions self) (x, y) ;;
           ret (Token.value tok)
      else get_token_loop x y keys'
  end.

Definition get_token (x y : pyval) : M t pyval :=
  self <- get_self ;;
  get_token_loop x y (dict_keys (positions self)).

(** [del d[k]]: a [KeyError] when the key is absent. *)
Definition delitem (k : coord) : M t unit :=
  self <- get_self ;;
  match positions self !! k with
  | Some _ => put_self (set_positions (delete k (positions self)) self)
  | None => raise (KeyError (KPos k))
  end.

(** The loop of [remove_token]: the first matching key is deleted and
    the loop is left by [break]. *)
Fixpoint remove_token_loop (x y : pyval) (keys : list coord) : M t unit :=
  match keys with
  | [] => ret tt
  | position :: keys' =>
      if py_eq x position.1 && py_eq y position.2
      then delitem (x, y)
      else remove_token_loop x y keys'
  end.

(** The method ends without a [return] statement: its value is
    [None]. *)
Definition remove_token (x y : pyval) : M t pyval :=
  self <- get_self ;;
  _ <- remove_token_loop x y (dict_keys (positions self)) ;;
  ret VNone.

Definition place_token (x y symbol : pyval) : M t pyval :=
  self <- get_self ;;
  let t := Token.mk symbol in
  _ <- put_self (set_positions (<[(x, y) := t]> (positions self)) self) ;;
  ret VNone.

End Board.

(** ** class Action *)

Module Action.
Record t : Type := mk {
  name : string;
  payload : gmap string pyval
}.
End Action.

(** ** class App *)

(** What [execute] hands back to its caller: a plain value, or the
    board object that [create_board] returns.  The board is represented
    by its contents at the moment of the return. *)
Inductive retval : Type :=
  | RVal (v : pyval)
  | RBoard (b : Board.t).

Module App.

(** The attribute [board] does not exist until [create_board] has run;
    [commands] is assigned once in [__init__] and never again, so it is
    the constant table below rather than a field. *)
Record t : Type := mk { board : option Board.t }.

Definition __init__ : t := {| board := None |}.

(** Reading [self.board]. *)
Definition get_board : M t Board.t :=
  self <- get_self ;;
  match board self with
  | Some b => ret b
  | None => raise (AttributeError "board")
  end.

(** Calling a method on [b], the object that [self.board] referred to
    when the call expression began.  Reading the payload in between
    does not reassign [self.board], so the mutations of the method are
    mutations of the board of the dispatcher. *)
Definition on_board {A} (b : Board.t) (m : M Board.t A) : M t A :=
  λ _, let (r, b') := m b in (r, {| board := Some b' |}).

(** [options[k]] on a payload. *)
Definition option_ (options : gmap string pyval) (k : string) : M t pyval :=
  getitem KStr options k.

Definition create_board (options : gmap string pyval) : M t retval :=
  x <- option_ options "x" ;;
  y <- option_ options "y" ;;
  _ <- put_self {| board := Some (Board.__init__ x y) |} ;;
  b <- get_board ;;
  ret (RBoard b).

(** In a call [self.board.m(args)] Python first evaluates
    [self.board.m] and only then the arguments, left to right. *)
Definition place_token (options : gmap string pyval) : M t retval :=
  b <- get_board ;;
  x <- option_ options "x" ;;
  y <- option_ options "y" ;;
  symbol <- option_ options "symbol" ;;
  r <- on_board b (Board.place_token x y symbol) ;;
  ret (RVal r).

Definition get_token (options : gmap string pyval) : M t retval :=
  b <- get_board ;;
  x <- option_ options "x" ;;
  y <- option_ options "y" ;;
  r <- on_board b (Board.get_token x y) ;;
  ret (RVal r).

Definition remove_token (options : gmap string pyval) : M t retval :=
  b <- get_board ;;
  x <- option_ options "x" ;;
  y <- option_ options "y" ;;
  r <- on_board b (Board.remove_token x y) ;;
  ret (RVal r).

(** The routing table built in [__init__]. *)
Definition commands : gmap string (gmap string pyval → M t retval) :=
  <["create_board" := create_board]>
  (<["place_token" := place_token]>
  (<["get_token" := get_token]>
  (<["remove_token" := remove_token]> ∅))).

Definition execute (action : Action.t) : M t retval :=
  match commands !! Action.name action with
  | None => ret (RVal VNone)
  | Some command => command (Action.payload action)
  end.

End App.

(** ** Notions used to state the properties *)

(** The tokens that the dictionary of a board holds under the key
    [(x, y)]. *)
Definition tokens_at (x y : pyval) (b : Board.t) : list Token.t :=
  (filter (λ kt, kt.1 = (x, y)) (map_to_list (Board.positions b))).*2.

(** A history of placements and removals on one board. *)
Inductive board_op : Type :=
  | Place (x y symbol : pyval)
  | Remove (x y : pyval).

Definition do_op (o : board_op) : M Board.t pyval :=
  match o with
  | Place x y symbol => Board.place_token x y symbol
  | Remove x y => Board.remove_token x y
  end.

Fixpoint do_ops (os : list board_op) : M Board.t unit :=
  match os with
  | [] => ret tt
  | o :: os' => _ <- do_op o ;; do_ops os'
  end.

(** The symbol that a history leaves at [(x, y)] when the cell held
    [cur] before it: that of the last placement there, unless a removal
    there came later. *)
Fixpoint occupant (x y : pyval) (os : list board_op) (cur : option pyval)
    : option pyval :=
  match os with
  | [] => cur
  | Place x' y' symbol :: os' =>
      occupant x y os'
        (if bool_decide ((x', y') = (x, y)) then Some symbol else cur)
  | Remove x' y' :: os' =>
      occupant x y os'
        (if bool_decide ((x', y') = (x, y)) then None else cur)
  end.

(** The names in the routing table. *)
Definition routing_names : list string :=
  ["create_board"; "place_token"; "get_token"; "remove_token"].

(** The payload keys that the handler of a command reads, in the order
    in which it reads them. *)
Definition required_keys (name : string) : list string :=
  if bool_decide (name = "place_token") then ["x"; "y"; "symbol"]
  else if bool_decide (name ∈ routing_names) then ["x"; "y"]
  else [].

(** The first of [keys] that a payload lacks. *)
Fixpoint first_missing (keys : list string) (options : gmap string pyval)
    : option string :=
  match keys with
  | [] => None
  | k :: keys' =>
      match options !! k with
      | None => Some k
      | Some _ => first_missing keys' options
      end
  end.

Definition is_int (v : pyval) : bool :=
  match v with VInt _ => true | _ => false end.

Definition is_str (v : pyval) : bool :=
  match v with VStr _ => true | _ => false end.

(** A board as the documented callers build it: integer extent,
    string symbols. *)
Definition well_typed (b : Board.t) : Prop :=
  is_int (Board.width b) ∧ is_int (Board.height b) ∧
  map_Forall (λ _ t, is_str (Token.value t)) (Board.positions b).

Definition int_of (v : pyval) : Z :=
  match v with VInt n => n | _ => 0 end.

Definition str_of (v : pyval) : string :=
  match v with VStr s => s | _ => EmptyString end.

Definition join (l : list string) : string :=
  foldr String.append EmptyString l.

(** The rendering as the specification words it: for each row [y] in
    [[0, height)], for each column [x] in [[0, width)], the symbol of
    the token and a separator if the cell is occupied, else the
    placeholder and the separator; each row ends with a line break and
    a blank line. *)
Definition render_cell_spec (b : Board.t) (y x : Z) : string :=
  match Board.positions b !! (VInt x, VInt y) with
  | Some tok => str_of (Token.value tok) ++ " "
  | None => ". "
  end.

Definition render_row_spec (b : Board.t) (y : Z) : string :=
  join (render_cell_spec b y <$> seqZ 0 (int_of (Board.width b))) ++ nl ++ nl.

Definition render_spec (b : Board.t) : string :=
  join (render_row_spec b <$> seqZ 0 (int_of (Board.height b))).

(** The dispatcher after a caller has sent it a sequence of actions,
    going on after an action that raised. *)
Definition state_after (history : list Action.t) (app : App.t) : App.t :=
  foldl (λ app action, (App.execute action app).2) app history.

(** The payload and the board of the test run at the end of the source
    file. *)
Definition test_options : gmap string pyval :=
  <["x" := VInt 3]> (<["y" := VInt 3]> (<["symbol" := VStr "X"]> ∅)).

Definition test_board_options : gmap string pyval :=
  <["x" := VInt 8]> (<["y" := VInt 8]> ∅).

Definition app_8x8 : App.t :=
  App.mk (Some (Board.__init__ (VInt 8) (VInt 8))).

Definition test_history : list Action.t :=
  [ Action.mk "create_board" test_board_options;
    Action.mk "place_token" test_options;
    Action.mk "get_token" test_options;
    Action.mk "remove_token" test_options;
    Action.mk "get_token" test_options ].

(** What [execute] returned for each action of a sequence. *)
Fixpoint results_of (history : list Action.t) (app : App.t)
    : list (result retval) :=
  match history with
  | [] => []
  | action :: history' =>
      let (r, app') := App.execute action app in
      r :: results_of history' app'
  end.

(** A 2-by-2 board with an ["X"] in the second column of the first
    row. *)
Definition board_2x2_X : Board.t :=
  (Board.place_token (VInt 1) (VInt 0) (VStr "X")
     (Board.__init__ (VInt 2) (VInt 2))).2.

(** ** Notions for the further properties *)

(** [str(app.board)], which the loop at the end of the source file
    prints after each command. *)
Definition str_board : M App.t string :=
  b <- App.get_board ;;
  App.on_board b Board.__str__.

(** The number of entries of the dictionary: what [len(self.positions)]
    is and how many keys the loops of [get_token] and [remove_token]
    can visit. *)
Definition token_count (b : Board.t) : nat :=
  length (dict_keys (Board.positions b)).

(** The keys that [__str__] looks up on a board of width [w] and
    height [h]: integer pairs [(x, y)] with [0 <= x < w] and
    [0 <= y < h].  Among the values of [pyval] no other key is equal to
    one of these. *)
Definition visible (w h : Z) (p : coord) : bool :=
  match p with
  | (VInt x, VInt y) => bool_decide ((0 ≤ x < w)%Z ∧ (0 ≤ y < h)%Z)
  | _ => false
  end.

(** A cell that [__str__] can print: empty, or holding a string. *)
Definition cell_ok (b : Board.t) (row column : Z) : bool :=
  match Board.positions b !! (VInt column, VInt row) with
  | Some tok => is_str (Token.value tok)
  | None => true
  end.

Definition window_ok (b : Board.t) : bool :=
  forallb
    (λ row, forallb (cell_ok b row) (seqZ 0 (int_of (Board.width b))))
    (seqZ 0 (int_of (Board.height b))).

(** A symbol of one character. *)
Definition is_char (v : pyval) : bool :=
  match v with
  | VStr (String _ EmptyString) => true
  | _ => false
  end.

(** A payload entry that is absent or satisfies [P]. *)
Definition entry_is (P : pyval → bool) (options : gmap string pyval)
    (k : string) : bool :=
  from_option P true (options !! k).

(** An action as the command table of the specification types it: an
    integer extent for [create_board], a string symbol for
    [place_token]. *)
Definition typed_action (action : Action.t) : bool :=
  if bool_decide (Action.name action = "create_board")
  then entry_is is_int (Action.payload action) "x"
       && entry_is is_int (Action.payload action) "y"
  else if bool_decide (Action.name action = "place_token")
  then entry_is is_str (Action.payload action) "symbol"
  else true.

Definition is_ok {A} (r : result A) : bool :=
  match r with Ok _ => true | Raise _ => false end.

(** A dispatcher without a board, or with a well-typed one. *)
Definition board_typed (app : App.t) : Prop :=
  match App.board app with
  | Some b => well_typed b
  | None => True
  end.

(** Inputs for the concrete runs of the further properties. *)
Definition board_8x8 : Board.t := Board.__init__ (VInt 8) (VInt 8).

Definition xy_options : gmap string pyval :=
  <["x" := VInt 3]> (<["y" := VInt 3]> ∅).

Definition small_history : list Action.t :=
  [ Action.mk "create_board" (<["x" := VInt 2]> (<["y" := VInt 2]> ∅));
    Action.mk "place_token"
      (<["x" := VInt 1]> (<["y" := VInt 0]> (<["symbol" := VStr "X"]> ∅))) ].

(** Boards that [execute] builds without raising and that [__str__]
    cannot print: a 2-by-2 board holding the symbol [5], and a board
    whose height is the string ["2"]. *)
Definition board_2x2_5 : Board.t :=
  (Board.place_token (VInt 0) (VInt 0) (VInt 5)
     (Board.__init__ (VInt 2) (VInt 2))).2.

Definition symbol_5_options : gmap string pyval :=
  <["x" := VInt 0]> (<["y" := VInt 0]> (<["symbol" := VInt 5]> ∅)).

Definition height_str_options : gmap string pyval :=
  <["x" := VInt 2]> (<["y" := VStr "2"]> ∅).

(** * Properties *)

(** ** The board methods in closed form *)

(** One turn of a loop over the keys: the key at hand is the one looked
    for, or the rest of the keys decides. *)
Ltac key_loop_step x y p keys IH :=
  destruct (decide ((x, y) = p)) as [<-|Hp];
  [ rewrite !bool_decide_eq_true_2; [done | apply list_elem_of_here | done]
  | rewrite (bool_decide_eq_false_2 _ Hp), IH;
    replace (bool_decide ((x, y) ∈ p :: keys))
      with (bool_decide ((x, y) ∈ keys))
      by (apply bool_decide_ext; rewrite elem_of_cons; tauto);
    done ].

Section BoardEquations.
Implicit Types (self b : Board.t) (x y symbol : pyval) (p : coord).

Lemma set_positions_same self :
  Board.set_positions (Board.positions self) self = self.
Proof. by destruct self. Qed.

Lemma py_eq_pair x y p :
  py_eq x p.1 && py_eq y p.2 = bool_decide ((x, y) = p).
Proof.
  destruct p as [px py]; unfold py_eq; simpl.
  repeat case_bool_decide; simplify_eq; done.
Qed.

Lemma elem_of_dict_keys (m : gmap coord Token.t) p :
  p ∈ dict_keys m ↔ is_Some (m !! p).
Proof.
  unfold dict_keys. rewrite list_elem_of_fmap. split.
  - intros [[k t] [-> Hin]]. apply elem_of_map_to_list in Hin. by exists t.
  - intros [t Ht]. exists (p, t). split; [done|]. by apply elem_of_map_to_list.
Qed.

(** The loop of [get_token] finds a key exactly when the key is among
    those it visits, whatever their order. *)
Lemma get_token_loop_eq x y (keys : list coord) self :
  Board.get_token_loop x y keys self =
    if bool_decide ((x, y) ∈ keys)
    then (tok <- getitem KPos (Board.positions self) (x, y) ;;
          ret (Token.value tok)) self
    else (Ok VNone, self).
Proof.
  induction keys as [|p keys IH]; cbn [Board.get_token_loop].
  - rewrite bool_decide_eq_false_2; [done|]. apply not_elem_of_nil.
  - rewrite py_eq_pair. key_loop_step x y p keys IH.
Qed.

Lemma get_token_eq x y self :
  Board.get_token x y self =
    (Ok (from_option Token.value VNone (Board.positions self !! (x, y))), self).
Proof.
  unfold Board.get_token, bind, get_self. rewrite get_token_loop_eq.
  case_bool_decide as Hin; rewrite elem_of_dict_keys in Hin.
  - destruct Hin as [t Ht]. unfold bind, getitem. by rewrite Ht.
  - apply eq_None_not_Some in Hin. by rewrite Hin.
Qed.

Lemma remove_token_loop_eq x y (keys : list coord) self :
  Board.remove_token_loop x y keys self =
    if bool_decide ((x, y) ∈ keys)
    then Board.delitem (x, y) self
    else (Ok tt, self).
Proof.
  induction keys as [|p keys IH]; cbn [Board.remove_token_loop].
  - rewrite bool_decide_eq_false_2; [done|]. apply not_elem_of_nil.
  - rewrite py_eq_pair. key_loop_step x y p keys IH.
Qed.

Lemma remove_token_eq x y self :
  Board.remove_token x y self =
    (Ok VNone,
     Board.set_positions (delete (x, y) (Board.positions self)) self).
Proof.
  unfold Board.remove_token, bind, get_self. rewrite remove_token_loop_eq.
  case_bool_decide as Hin; rewrite elem_of_dict_keys in Hin.
  - destruct Hin as [t Ht].
    unfold Board.delitem, bind, get_self. by rewrite Ht.
  - apply eq_None_not_Some in Hin.
    rewrite delete_id by done. by rewrite set_positions_same.
Qed.

Lemma place_token_eq x y symbol self :
  Board.place_token x y symbol self =
    (Ok VNone,
     Board.set_positions
       (<[(x, y) := Token.mk symbol]> (Board.positions self)) self).
Proof. reflexivity. Qed.

Lemma lookup_set_positions ps self p :
  Board.positions (Board.set_positions ps self) !! p = ps !! p.
Proof. reflexivity. Qed.

(** A dictionary holds one entry per key. *)
Lemma tokens_at_lookup x y b tok :
  Board.positions b !! (x, y) = Some tok → tokens_at x y b = [tok].
Proof.
  intros Hl. unfold tokens_at.
  rewrite <- (insert_delete_id (Board.positions b) (x, y) tok Hl).
  assert (Hp : filter (λ kt : coord * Token.t, kt.1 = (x, y))
                 (map_to_list (<[(x, y) := tok]>
                    (delete (x, y) (Board.positions b))))
               ≡ₚ [((x, y), tok)]).
  { rewrite map_to_list_insert by apply lookup_delete_eq.
    rewrite filter_cons_True by done.
    apply Permutation_skip. apply Permutation_nil_r.
    apply elem_of_nil_inv. intros [k t].
    rewrite list_elem_of_filter, elem_of_map_to_list. simpl.
    intros [-> Hin]. by rewrite lookup_delete_eq in Hin. }
  apply Permutation_singleton_r in Hp. by rewrite Hp.
Qed.

Lemma tokens_at_lookup_None x y b :
  Board.positions b !! (x, y) = None → tokens_at x y b = [].
Proof.
  intros Hl. unfold tokens_at.
  rewrite (elem_of_nil_inv (filter _ _)); [done|]. intros [k t].
  rewrite list_elem_of_filter, elem_of_map_to_list. simpl.
  intros [-> Hin]. congruence.
Qed.

End BoardEquations.

(** ** Placing, reading and removing tokens *)

Section BoardClaims.
Implicit Types (b : Board.t) (x y symbol : pyval).

(** A history runs to its end without raising, keeps the extent of
    the board, and leaves at every cell what [occupant] says. *)
Lemma do_ops_occupant os x y : ∀ b0,
  ∃ b, do_ops os b0 = (Ok tt, b) ∧
       Board.width b = Board.width b0 ∧
       Board.height b = Board.height b0 ∧
       Token.value <$> Board.positions b !! (x, y) =
         occupant x y os (Token.value <$> Board.positions b0 !! (x, y)).
Proof.
  induction os as [|o os IH]; intros b0.
  - by exists b0.
  - destruct o as [x' y' symbol|x' y']; cbn [do_ops do_op occupant];
      unfold bind.
    + rewrite place_token_eq.
      edestruct IH as (b & -> & Hw & Hh & Hocc).
      exists b. rewrite Hw, Hh, Hocc, lookup_set_positions.
      repeat split. f_equal.
      rewrite lookup_insert. by repeat case_decide; case_bool_decide.
    + rewrite remove_token_eq.
      edestruct IH as (b & -> & Hw & Hh & Hocc).
      exists b. rewrite Hw, Hh, Hocc, lookup_set_positions.
      repeat split. f_equal.
      rewrite lookup_delete. by repeat case_decide; case_bool_decide.
Qed.

(** C1. Placing a token at [(x, y)] twice in succession, with any two
    symbols, raises nothing, leaves exactly one token under [(x, y)],
    and a following [get_token] at [(x, y)] returns the second
    symbol. *)
Theorem C1_place_twice_last_write_wins b x y (s1 s2 : pyval) :
  ∃ b1 b2,
    Board.place_token x y s1 b = (Ok VNone, b1) ∧
    Board.place_token x y s2 b1 = (Ok VNone, b2) ∧
    tokens_at x y b2 = [Token.mk s2] ∧
    Board.get_token x y b2 = (Ok s2, b2).
Proof.
  eexists _, _. split; [apply place_token_eq|].
  split; [apply place_token_eq|].
  split.
  - apply tokens_at_lookup. rewrite lookup_set_positions.
    apply lookup_insert_eq.
  - rewrite get_token_eq, lookup_set_positions, lookup_insert_eq. done.
Qed.

(** C2. After any history of placements and removals, [get_token] at
    [(x, y)] raises nothing and changes nothing; it returns [None]
    when no token was ever placed at [(x, y)] or the last one placed
    there was removed since, and the symbol of the token when one
    occupies the cell.  In terms of the dictionary: the symbol stored
    under [(x, y)], or [None] when the key is absent. *)
Theorem C2_get_absent_or_symbol (b0 : Board.t) (os : list board_op) x y :
  (∃ b, do_ops os b0 = (Ok tt, b) ∧
        Board.get_token x y b =
          (Ok (default VNone
                 (occupant x y os
                    (Token.value <$> Board.positions b0 !! (x, y)))), b)) ∧
  Board.get_token x y b0 =
    (Ok (match Board.positions b0 !! (x, y) with
         | Some tok => Token.value tok
         | None => VNone
         end), b0) ∧
  (∀ w h, Board.get_token x y (Board.__init__ w h) =
            (Ok VNone, Board.__init__ w h)).
Proof.
  split; [|split].
  - destruct (do_ops_occupant os x y b0) as (b & Hrun & _ & _ & Hocc).
    exists b. split; [done|].
    rewrite get_token_eq, <- Hocc.
    by destruct (Board.positions b !! (x, y)).
  - apply get_token_eq.
  - intros w h. rewrite get_token_eq. cbn [Board.positions Board.__init__].
    by rewrite lookup_empty.
Qed.

(** C3. Removing at [(x, y)] twice in succession leaves the board that
    removing once leaves: no entry under [(x, y)], every other entry
    and the extent as before; neither call raises, the second one
    changes nothing. *)
Theorem C3_remove_idempotent b x y :
  ∃ b1,
    Board.remove_token x y b = (Ok VNone, b1) ∧
    Board.remove_token x y b1 = (Ok VNone, b1) ∧
    (∀ p, Board.positions b1 !! p =
            if bool_decide (p = (x, y)) then None
            else Board.positions b !! p) ∧
    Board.width b1 = Board.width b ∧
    Board.height b1 = Board.height b.
Proof.
  eexists. split; [apply remove_token_eq|].
  split; [|split; [|done]].
  - rewrite remove_token_eq. f_equal.
    destruct b as [w h ps]. unfold Board.set_positions; simpl.
    f_equal. apply delete_id, lookup_delete_eq.
  - intros p. rewrite lookup_set_positions, lookup_delete.
    case_decide; case_bool_decide; congruence.
Qed.

(** C7. On a board of width [w] and height [h], at a coordinate with
    [x >= w] or [y >= h]: [place_token] stores the token and a
    following [get_token] returns its symbol; [get_token] returns the
    stored symbol or [None]; [remove_token] deletes the entry.  None
    of the calls raises. *)
Theorem C7_out_of_range_tolerated b (w h cx cy : Z) symbol :
  Board.width b = VInt w →
  Board.height b = VInt h →
  (cx >= w)%Z ∨ (cy >= h)%Z →
  let x := VInt cx in
  let y := VInt cy in
  ∃ b1 b2,
    Board.place_token x y symbol b = (Ok VNone, b1) ∧
    Board.get_token x y b1 = (Ok symbol, b1) ∧
    Board.get_token x y b =
      (Ok (match Board.positions b !! (x, y) with
           | Some tok => Token.value tok
           | None => VNone
           end), b) ∧
    Board.remove_token x y b1 = (Ok VNone, b2) ∧
    Board.positions b2 !! (x, y) = None ∧
    Board.get_token x y b2 = (Ok VNone, b2).
Proof.
  intros _ _ _ x y. eexists _, _.
  split; [apply place_token_eq|].
  split; [by rewrite get_token_eq, lookup_set_positions, lookup_insert_eq|].
  split; [apply get_token_eq|].
  split; [apply remove_token_eq|].
  split; [by rewrite lookup_set_positions, lookup_delete_eq|].
  by rewrite get_token_eq, lookup_set_positions, lookup_delete_eq.
Qed.

(** C10. For all integers [cx] and [cy], negative ones included,
    [place_token] stores a token that [get_token] at the same
    coordinate returns and that [remove_token] deletes; none of the
    calls raises. *)
Theorem C10_no_lower_bound_on_coordinates b (cx cy : Z) symbol :
  ∃ b1 b2,
    Board.place_token (VInt cx) (VInt cy) symbol b = (Ok VNone, b1) ∧
    Board.get_token (VInt cx) (VInt cy) b1 = (Ok symbol, b1) ∧
    Board.remove_token (VInt cx) (VInt cy) b1 = (Ok VNone, b2) ∧
    tokens_at (VInt cx) (VInt cy) b1 = [Token.mk symbol] ∧
    tokens_at (VInt cx) (VInt cy) b2 = [] ∧
    Board.get_token (VInt cx) (VInt cy) b2 = (Ok VNone, b2).
Proof.
  eexists _, _.
  split; [apply place_token_eq|].
  split; [by rewrite get_token_eq, lookup_set_positions, lookup_insert_eq|].
  split; [apply remove_token_eq|].
  split; [|split].
  - apply tokens_at_lookup. by rewrite lookup_set_positions, lookup_insert_eq.
  - apply tokens_at_lookup_None.
    by rewrite lookup_set_positions, lookup_delete_eq.
  - by rewrite get_token_eq, lookup_set_positions, lookup_delete_eq.
Qed.

End BoardClaims.

(** ** The dispatcher *)

Section AppClaims.
Implicit Types (app : App.t) (action : Action.t)
  (options : gmap string pyval).

Lemma commands_create_board :
  App.commands !! "create_board" = Some App.create_board.
Proof. reflexivity. Qed.

Lemma commands_place_token :
  App.commands !! "place_token" = Some App.place_token.
Proof. reflexivity. Qed.

Lemma commands_get_token :
  App.commands !! "get_token" = Some App.get_token.
Proof. reflexivity. Qed.

Lemma commands_remove_token :
  App.commands !! "remove_token" = Some App.remove_token.
Proof. reflexivity. Qed.

(** The names outside the routing table are those that
    [action.name not in self.commands] lets through. *)
Lemma commands_lookup_None (name : string) :
  App.commands !! name = None ↔ name ∉ routing_names.
Proof.
  unfold App.commands, routing_names.
  rewrite !lookup_insert_None, lookup_empty, !not_elem_of_cons.
  pose proof (not_elem_of_nil name). intuition congruence.
Qed.

Lemma execute_create_board options app :
  App.execute (Action.mk "create_board" options) app =
    match options !! "x", options !! "y" with
    | Some w, Some h =>
        (Ok (RBoard (Board.__init__ w h)),
         App.mk (Some (Board.__init__ w h)))
    | Some _, None => (Raise (KeyError (KStr "y")), app)
    | None, _ => (Raise (KeyError (KStr "x")), app)
    end.
Proof.
  unfold App.execute; cbn [Action.name Action.payload].
  rewrite commands_create_board.
  unfold App.create_board, App.option_, getitem, bind.
  by destruct (options !! "x"), (options !! "y").
Qed.

(** The three commands that work on the board read [self.board]
    first, then their payload, then call the method of the board. *)
Lemma execute_place_token options app :
  App.execute (Action.mk "place_token" options) app =
    match App.board app with
    | None => (Raise (AttributeError "board"), app)
    | Some b =>
        match options !! "x", options !! "y", options !! "symbol" with
        | Some x, Some y, Some symbol =>
            (Ok (RVal VNone),
             App.mk (Some (Board.set_positions
               (<[(x, y) := Token.mk symbol]> (Board.positions b)) b)))
        | Some _, Some _, None => (Raise (KeyError (KStr "symbol")), app)
        | Some _, None, _ => (Raise (KeyError (KStr "y")), app)
        | None, _, _ => (Raise (KeyError (KStr "x")), app)
        end
    end.
Proof.
  unfold App.execute; cbn [Action.name Action.payload].
  rewrite commands_place_token.
  unfold App.place_token, App.get_board, App.option_, App.on_board,
    getitem, bind, get_self.
  destruct (App.board app) as [b|]; [|done].
  destruct (options !! "x") as [x|]; [|done].
  destruct (options !! "y") as [y|]; [|done].
  by destruct (options !! "symbol").
Qed.

Lemma execute_get_token options app :
  App.execute (Action.mk "get_token" options) app =
    match App.board app with
    | None => (Raise (AttributeError "board"), app)
    | Some b =>
        match options !! "x", options !! "y" with
        | Some x, Some y =>
            (Ok (RVal (from_option Token.value VNone
                         (Board.positions b !! (x, y)))), app)
        | Some _, None => (Raise (KeyError (KStr "y")), app)
        | None, _ => (Raise (KeyError (KStr "x")), app)
        end
    end.
Proof.
  unfold App.execute; cbn [Action.name Action.payload].
  rewrite commands_get_token.
  unfold App.get_token, App.get_board, App.option_, App.on_board,
    getitem, bind, get_self.
  destruct app as [[b|]]; [|done]. cbn [App.board].
  destruct (options !! "x") as [x|]; [|done].
  destruct (options !! "y") as [y|]; [|done].
  unfold ret, raise. by rewrite get_token_eq.
Qed.

Lemma execute_remove_token options app :
  App.execute (Action.mk "remove_token" options) app =
    match App.board app with
    | None => (Raise (AttributeError "board"), app)
    | Some b =>
        match options !! "x", options !! "y" with
        | Some x, Some y =>
            (Ok (RVal VNone),
             App.mk (Some (Board.set_positions
               (delete (x, y) (Board.positions b)) b)))
        | Some _, None => (Raise (KeyError (KStr "y")), app)
        | None, _ => (Raise (KeyError (KStr "x")), app)
        end
    end.
Proof.
  unfold App.execute; cbn [Action.name Action.payload].
  rewrite commands_remove_token.
  unfold App.remove_token, App.get_board, App.option_, App.on_board,
    getitem, bind, get_self.
  destruct app as [[b|]]; [|done]. cbn [App.board].
  destruct (options !! "x") as [x|]; [|done].
  destruct (options !! "y") as [y|]; [|done].
  unfold ret, raise. by rewrite remove_token_eq.
Qed.

Lemma execute_unknown action app :
  Action.name action ∉ routing_names →
  App.execute action app = (Ok (RVal VNone), app).
Proof.
  intros Hname%commands_lookup_None. unfold App.execute. by rewrite Hname.
Qed.

(** Without a board, only [create_board] changes the dispatcher. *)
Lemma no_board_preserved action app :
  App.board app = None →
  Action.name action ≠ "create_board" →
  (App.execute action app).2 = app.
Proof.
  intros Hb Hname. destruct action as [name options].
  cbn [Action.name] in Hname.
  destruct (decide (name ∈ routing_names)) as [Hin|Hout].
  - unfold routing_names in Hin.
    rewrite !elem_of_cons, elem_of_nil in Hin.
    destruct Hin as [->|[->|[->|[->|[]]]]]; [done|..].
    + by rewrite execute_place_token, Hb.
    + by rewrite execute_get_token, Hb.
    + by rewrite execute_remove_token, Hb.
  - by rewrite execute_unknown.
Qed.

Lemma state_after_no_create history app :
  App.board app = None →
  Forall (λ action, Action.name action ≠ "create_board") history →
  state_after history app = app.
Proof.
  intros Hb Hall. unfold state_after.
  induction Hall as [|action history Hname _ IH]; [done|].
  cbn [foldl]. by rewrite no_board_preserved.
Qed.

(** A payload lacks one of [keys] exactly when [first_missing] names
    one; the key it names is lacking and is one of [keys]. *)
Lemma first_missing_Some keys options k :
  first_missing keys options = Some k → k ∈ keys ∧ options !! k = None.
Proof.
  induction keys as [|k' keys IH]; cbn [first_missing]; [done|].
  destruct (options !! k') eqn:Hk'.
  - intros [? ?]%IH. split; [by apply list_elem_of_further | done].
  - intros [= <-]. split; [apply list_elem_of_here | done].
Qed.

Lemma first_missing_is_Some keys options :
  (∃ k, k ∈ keys ∧ options !! k = None) →
  is_Some (first_missing keys options).
Proof.
  intros (k & Hin & Hk).
  induction keys as [|k' keys IH]; cbn [first_missing].
  - by apply elem_of_nil in Hin.
  - destruct (options !! k') eqn:Hk'; [|by eexists].
    apply elem_of_cons in Hin as [->|Hin]; [congruence | by apply IH].
Qed.

(** C4, as amended. For an action whose name is none of
    [create_board], [place_token], [get_token], [remove_token],
    [execute] raises nothing, leaves the dispatcher and its board as
    they were, and returns [None].  [None] differs from what
    [create_board] returns; it is not distinct from the results of
    the other commands. *)
Theorem C4_unknown_command_returns_None action app :
  Action.name action ∉ routing_names →
  App.execute action app = (Ok (RVal VNone), app) ∧
  (∀ options app0,
     (App.execute (Action.mk "create_board" options) app0).1
       ≠ Ok (RVal VNone)).
Proof.
  intros Hname. split; [by apply execute_unknown|].
  intros options app0. rewrite execute_create_board.
  by destruct (options !! "x"), (options !! "y").
Qed.

(** C5. While no [create_board] has been executed, each of
    [place_token], [get_token] and [remove_token] makes [execute]
    raise the attribute error for [board], whatever the payload; the
    error reaches the caller and the dispatcher is unchanged. *)
Theorem C5_board_command_before_create_board
    (history : list Action.t) (name : string) options :
  Forall (λ action, Action.name action ≠ "create_board") history →
  name ∈ ["place_token"; "get_token"; "remove_token"] →
  App.execute (Action.mk name options) (state_after history App.__init__)
    = (Raise (AttributeError "board"), App.__init__).
Proof.
  intros Hhist Hname.
  rewrite state_after_no_create by done.
  rewrite !elem_of_cons, elem_of_nil in Hname.
  destruct Hname as [->|[->|[->|[]]]].
  - by rewrite execute_place_token.
  - by rewrite execute_get_token.
  - by rewrite execute_remove_token.
Qed.

(** C6. In every state of the dispatcher, [create_board] with a
    payload that has the keys [x] and [y] builds a board of width
    [x] and height [y] without tokens, makes it the board of the
    dispatcher in place of any earlier one, and returns it. *)
Theorem C6_create_board_replaces options app (w h : pyval) :
  options !! "x" = Some w →
  options !! "y" = Some h →
  ∃ b,
    App.execute (Action.mk "create_board" options) app
      = (Ok (RBoard b), App.mk (Some b)) ∧
    Board.width b = w ∧ Board.height b = h ∧
    Board.positions b = ∅ ∧
    (∀ x y, tokens_at x y b = []).
Proof.
  intros Hx Hy. exists (Board.__init__ w h).
  rewrite execute_create_board, Hx, Hy.
  do 4 (split; [reflexivity|]).
  intros x y. by apply tokens_at_lookup_None.
Qed.

(** C9, as amended. For [create_board] in every state, and for
    [place_token], [get_token] and [remove_token] once a board
    exists: when the payload lacks a required key, [execute] raises
    the [KeyError] of the first key that is lacking, in the order
    [x], [y], [symbol]; the error reaches the caller and the
    dispatcher with its board is unchanged. *)
Theorem C9_missing_key_raises_KeyError (name : string) options app k :
  name ∈ routing_names →
  name = "create_board" ∨ is_Some (App.board app) →
  first_missing (required_keys name) options = Some k →
  k ∈ required_keys name ∧ options !! k = None ∧
  App.execute (Action.mk name options) app
    = (Raise (KeyError (KStr k)), app).
Proof.
  intros Hname Hstate Hmiss.
  split; [by eapply first_missing_Some|].
  split; [by eapply first_missing_Some|].
  unfold routing_names in Hname.
  rewrite !elem_of_cons, elem_of_nil in Hname.
  destruct Hname as [->|[->|[->|[->|[]]]]].
  - rewrite execute_create_board.
    change (required_keys "create_board") with ["x"; "y"] in Hmiss.
    cbn [first_missing] in Hmiss.
    destruct (options !! "x"); [|by simplify_eq].
    destruct (options !! "y"); by simplify_eq.
  - destruct Hstate as [?|[b Hb]]; [done|].
    rewrite execute_place_token, Hb.
    change (required_keys "place_token") with ["x"; "y"; "symbol"] in Hmiss.
    cbn [first_missing] in Hmiss.
    destruct (options !! "x"); [|by simplify_eq].
    destruct (options !! "y"); [|by simplify_eq].
    destruct (options !! "symbol"); by simplify_eq.
  - destruct Hstate as [?|[b Hb]]; [done|].
    rewrite execute_get_token, Hb.
    change (required_keys "get_token") with ["x"; "y"] in Hmiss.
    cbn [first_missing] in Hmiss.
    destruct (options !! "x"); [|by simplify_eq].
    destruct (options !! "y"); by simplify_eq.
  - destruct Hstate as [?|[b Hb]]; [done|].
    rewrite execute_remove_token, Hb.
    change (required_keys "remove_token") with ["x"; "y"] in Hmiss.
    cbn [first_missing] in Hmiss.
    destruct (options !! "x"); [|by simplify_eq].
    destruct (options !! "y"); by simplify_eq.
Qed.

End AppClaims.

(** ** Rendering *)

Section Rendering.
Implicit Types (b : Board.t) (output : string).

Lemma string_app_assoc (s1 s2 s3 : string) :
  (s1 ++ s2) ++ s3 = s1 ++ (s2 ++ s3).
Proof.
  induction s1 as [|a s1 IH]; [done|].
  change (String a ((s1 ++ s2) ++ s3) = String a (s1 ++ (s2 ++ s3))).
  by rewrite IH.
Qed.

Lemma string_app_nil_r (s : string) : s ++ EmptyString = s.
Proof.
  induction s as [|a s IH]; [done|].
  change (String a (s ++ EmptyString) = String a s). by rewrite IH.
Qed.

Lemma join_cons (s : string) (l : list string) :
  join (s :: l) = s ++ join l.
Proof. reflexivity. Qed.

Lemma str_cell_eq b row column output :
  map_Forall (λ _ t, is_str (Token.value t)) (Board.positions b) →
  Board.str_cell row column output b =
    (Ok (output ++ render_cell_spec b row column), b).
Proof.
  intros Htyped.
  unfold Board.str_cell, render_cell_spec, bind, get_self.
  case_bool_decide as Hin.
  - apply elem_of_dom in Hin as [tok Htok].
    unfold getitem. rewrite Htok. unfold ret.
    specialize (Htyped _ _ Htok). cbn beta in Htyped.
    by destruct (Token.value tok).
  - apply not_elem_of_dom in Hin. by rewrite Hin.
Qed.

Lemma str_columns_eq b row (columns : list Z) : ∀ output,
  map_Forall (λ _ t, is_str (Token.value t)) (Board.positions b) →
  Board.str_columns row columns output b =
    (Ok (output ++ join (render_cell_spec b row <$> columns)), b).
Proof.
  induction columns as [|column columns IH]; intros output Htyped.
  - cbn. by rewrite string_app_nil_r.
  - cbn [Board.str_columns]. unfold bind.
    rewrite str_cell_eq, IH by done.
    by rewrite string_app_assoc.
Qed.

Lemma str_rows_eq b (rows : list Z) : ∀ output,
  is_int (Board.width b) →
  map_Forall (λ _ t, is_str (Token.value t)) (Board.positions b) →
  Board.str_rows rows output b =
    (Ok (output ++ join (render_row_spec b <$> rows)), b).
Proof.
  induction rows as [|row rows IH]; intros output Hw Htyped.
  - cbn. by rewrite string_app_nil_r.
  - cbn [Board.str_rows]. unfold bind, get_self.
    rewrite fmap_cons, join_cons. unfold render_row_spec at 1.
    destruct (Board.width b) as [|w|] eqn:Ew; try done.
    cbn [Board.range int_of]. unfold ret at 1.
    rewrite str_columns_eq, IH by (by rewrite ?Ew).
    by rewrite !string_app_assoc.
Qed.

(** On a well-typed board [__str__] returns the rendering that the
    specification describes, and leaves the board as it was. *)
Lemma str_refines_render_spec b :
  well_typed b → Board.__str__ b = (Ok (render_spec b), b).
Proof.
  intros (Hw & Hh & Htyped). unfold Board.__str__, bind, get_self.
  unfold render_spec.
  destruct (Board.height b) as [|h|] eqn:Eh; try done.
  cbn [Board.range int_of]. unfold ret at 1.
  by rewrite str_rows_eq.
Qed.

(** C8, as amended. An empty 2-by-2 board renders as two rows, each
    the text [". . "] followed by two line breaks; [__str__] visits the
    rows [0 .. height-1] and in each the columns [0 .. width-1], and it
    does not raise on a board whose width and height are integers and
    whose tokens hold strings. *)
Theorem C8_render_empty_2x2 :
  Board.__str__ (Board.__init__ (VInt 2) (VInt 2)) =
    (Ok (". . " ++ nl ++ nl ++ ". . " ++ nl ++ nl),
     Board.__init__ (VInt 2) (VInt 2)) ∧
  (∀ b, well_typed b → Board.__str__ b = (Ok (render_spec b), b)).
Proof.
  split; [|apply str_refines_render_spec].
  rewrite str_refines_render_spec; [done|].
  repeat split. apply map_Forall_empty.
Qed.

End Rendering.

(** ** Concrete runs *)

(** The test run of the source file: the results it asserts are the
    results of the model. *)
Example test_history_results :
  results_of test_history App.__init__ =
    [ Ok (RBoard (Board.__init__ (VInt 8) (VInt 8)));
      Ok (RVal VNone);
      Ok (RVal (VStr "X"));
      Ok (RVal VNone);
      Ok (RVal VNone) ].
Proof. reflexivity. Qed.

Lemma board_2x2_X_well_typed : well_typed board_2x2_X.
Proof.
  repeat split. apply map_Forall_insert_2; [done|]. apply map_Forall_empty.
Qed.

(** An unknown command and [get_token] on an empty cell hand the same
    result to the caller. *)
Lemma C4_counterexample :
  ("undo" ∉ routing_names) ∧
  "get_token" ∈ routing_names ∧
  (App.execute (Action.mk "undo" test_options) app_8x8).1 = Ok (RVal VNone) ∧
  (App.execute (Action.mk "get_token" test_options) app_8x8).1
    = Ok (RVal VNone).
Proof.
  split; [by apply commands_lookup_None|].
  split; [|done].
  unfold routing_names. rewrite !elem_of_cons. auto.
Qed.

Lemma C4_witness :
  ("undo" ∉ routing_names) ∧
  App.execute (Action.mk "undo" test_options) app_8x8
    = (Ok (RVal VNone), app_8x8).
Proof.
  assert (Hname : Action.name (Action.mk "undo" test_options)
                    ∉ routing_names) by (by apply commands_lookup_None).
  split; [exact Hname|].
  exact (proj1 (C4_unknown_command_returns_None _ app_8x8 Hname)).
Defined.

Lemma C5_witness :
  App.execute (Action.mk "place_token" test_options)
    (state_after [Action.mk "undo" ∅; Action.mk "get_token" test_options]
       App.__init__)
    = (Raise (AttributeError "board"), App.__init__).
Proof.
  apply C5_board_command_before_create_board.
  - repeat constructor; discriminate.
  - apply list_elem_of_here.
Defined.

Lemma C6_witness :
  ∃ b,
    App.execute (Action.mk "create_board" test_board_options) app_8x8
      = (Ok (RBoard b), App.mk (Some b)) ∧
    Board.width b = VInt 8 ∧ Board.height b = VInt 8 ∧
    Board.positions b = ∅ ∧
    (∀ x y, tokens_at x y b = []).
Proof.
  apply (C6_create_board_replaces test_board_options app_8x8);
    reflexivity.
Defined.

Lemma C7_witness :
  ∃ b1 b2,
    Board.place_token (VInt 9) (VInt 12) (VStr "X")
      (Board.__init__ (VInt 8) (VInt 8)) = (Ok VNone, b1) ∧
    Board.get_token (VInt 9) (VInt 12) b1 = (Ok (VStr "X"), b1) ∧
    Board.get_token (VInt 9) (VInt 12) (Board.__init__ (VInt 8) (VInt 8))
      = (Ok VNone, Board.__init__ (VInt 8) (VInt 8)) ∧
    Board.remove_token (VInt 9) (VInt 12) b1 = (Ok VNone, b2) ∧
    Board.positions b2 !! (VInt 9, VInt 12) = None ∧
    Board.get_token (VInt 9) (VInt 12) b2 = (Ok VNone, b2).
Proof.
  apply (C7_out_of_range_tolerated (Board.__init__ (VInt 8) (VInt 8))
           8 8 9 12 (VStr "X")); [reflexivity | reflexivity | lia].
Defined.

Lemma C8_witness :
  well_typed board_2x2_X ∧
  Board.__str__ board_2x2_X =
    (Ok (". X " ++ nl ++ nl ++ ". . " ++ nl ++ nl), board_2x2_X).
Proof.
  split; [exact board_2x2_X_well_typed|].
  rewrite (proj2 C8_render_empty_2x2 _ board_2x2_X_well_typed).
  reflexivity.
Defined.

(** Rendering can fail: [execute] accepts a symbol that is not a
    string and an extent that is not an integer, and [__str__] then
    raises [TypeError]. *)
Lemma C8_counterexample :
  App.execute (Action.mk "place_token" symbol_5_options)
      (App.mk (Some (Board.__init__ (VInt 2) (VInt 2))))
    = (Ok (RVal VNone), App.mk (Some board_2x2_5)) ∧
  Board.__str__ board_2x2_5 = (Raise TypeError, board_2x2_5) ∧
  App.execute (Action.mk "create_board" height_str_options) App.__init__
    = (Ok (RBoard (Board.__init__ (VInt 2) (VStr "2"))),
       App.mk (Some (Board.__init__ (VInt 2) (VStr "2")))) ∧
  Board.__str__ (Board.__init__ (VInt 2) (VStr "2"))
    = (Raise TypeError, Board.__init__ (VInt 2) (VStr "2")).
Proof. repeat split. Qed.

(** Without a board, [place_token] with an empty payload raises the
    attribute error, which names no payload key. *)
Lemma C9_counterexample :
  "place_token" ∈ routing_names ∧
  first_missing (required_keys "place_token") ∅ = Some "x" ∧
  App.execute (Action.mk "place_token" ∅) App.__init__
    = (Raise (AttributeError "board"), App.__init__).
Proof.
  split; [|done].
  unfold routing_names. rewrite !elem_of_cons. auto.
Qed.

Lemma C9_witness :
  "y" ∈ required_keys "get_token" ∧
  ({[ "x" := VInt 3 ]} : gmap string pyval) !! "y" = None ∧
  App.execute (Action.mk "get_token" {[ "x" := VInt 3 ]}) app_8x8
    = (Raise (KeyError (KStr "y")), app_8x8).
Proof.
  apply (C9_missing_key_raises_KeyError "get_token" {[ "x" := VInt 3 ]}
           app_8x8 "y").
  - unfold routing_names. rewrite !elem_of_cons. auto.
  - right. by eexists.
  - reflexivity.
Defined.

(** ** How the board methods compose *)

Section BoardAlgebra.
Implicit Types (b : Board.t) (x y symbol : pyval).

Lemma set_positions_twice ps ps' b :
  Board.set_positions ps (Board.set_positions ps' b)
    = Board.set_positions ps b.
Proof. reflexivity. Qed.

(** Running two methods one after the other, in closed form. *)
Lemma place_then_place x y symbol x' y' symbol' b :
  (_ <- Board.place_token x y symbol ;; Board.place_token x' y' symbol') b =
    (Ok VNone,
     Board.set_positions
       (<[(x', y') := Token.mk symbol']>
          (<[(x, y) := Token.mk symbol]> (Board.positions b))) b).
Proof. reflexivity. Qed.

Lemma place_then_remove x y symbol x' y' b :
  (_ <- Board.place_token x y symbol ;; Board.remove_token x' y') b =
    (Ok VNone,
     Board.set_positions
       (delete (x', y')
          (<[(x, y) := Token.mk symbol]> (Board.positions b))) b).
Proof. unfold bind. by rewrite place_token_eq, remove_token_eq. Qed.

Lemma remove_then_place x y x' y' symbol' b :
  (_ <- Board.remove_token x y ;; Board.place_token x' y' symbol') b =
    (Ok VNone,
     Board.set_positions
       (<[(x', y') := Token.mk symbol']>
          (delete (x, y) (Board.positions b))) b).
Proof. unfold bind. by rewrite remove_token_eq, place_token_eq. Qed.

Lemma remove_then_remove x y x' y' b :
  (_ <- Board.remove_token x y ;; Board.remove_token x' y') b =
    (Ok VNone,
     Board.set_positions
       (delete (x', y') (delete (x, y) (Board.positions b))) b).
Proof. unfold bind. by rewrite !remove_token_eq. Qed.

(** X1. Placing a token at [(x, y)] changes what [get_token] returns at
    no other coordinate, and leaves width and height as they were. *)
Theorem X1_place_token_frame b x y symbol x' y' :
  (x', y') ≠ (x, y) →
  ∃ b1,
    Board.place_token x y symbol b = (Ok VNone, b1) ∧
    (Board.get_token x' y' b1).1 = (Board.get_token x' y' b).1 ∧
    Board.width b1 = Board.width b ∧
    Board.height b1 = Board.height b.
Proof.
  intros Hne. eexists. split; [apply place_token_eq|].
  split; [|done].
  rewrite !get_token_eq, lookup_set_positions.
  by rewrite lookup_insert_ne.
Qed.

(** X2. On a cell without a token, placing a token and then removing it
    gives back the board exactly as it was. *)
Theorem X2_place_then_remove_restores b x y symbol :
  Board.positions b !! (x, y) = None →
  (_ <- Board.place_token x y symbol ;; Board.remove_token x y) b
    = (Ok VNone, b).
Proof.
  intros Habsent. rewrite place_then_remove. f_equal.
  rewrite delete_insert_id by done. apply set_positions_same.
Qed.

(** X3. On a cell that holds a token, removing it and then placing its
    symbol again gives back the board exactly as it was. *)
Theorem X3_remove_then_place_restores b x y symbol :
  Board.positions b !! (x, y) = Some (Token.mk symbol) →
  (_ <- Board.remove_token x y ;; Board.place_token x y symbol) b
    = (Ok VNone, b).
Proof.
  intros Hheld. rewrite remove_then_place. f_equal.
  rewrite insert_delete_id by done. apply set_positions_same.
Qed.

(** X4. Calls at two different coordinates can be swapped: two
    placements, a placement and a removal, or two removals leave the
    same board in either order. *)
Theorem X4_distinct_coordinates_commute b x y x' y' symbol symbol' :
  (x, y) ≠ (x', y') →
  (_ <- Board.place_token x y symbol ;; Board.place_token x' y' symbol') b
    = (_ <- Board.place_token x' y' symbol' ;; Board.place_token x y symbol) b
  ∧
  (_ <- Board.place_token x y symbol ;; Board.remove_token x' y') b
    = (_ <- Board.remove_token x' y' ;; Board.place_token x y symbol) b
  ∧
  (_ <- Board.remove_token x y ;; Board.remove_token x' y') b
    = (_ <- Board.remove_token x' y' ;; Board.remove_token x y) b.
Proof.
  intros Hne.
  rewrite !place_then_place, place_then_remove, remove_then_place,
    !remove_then_remove.
  repeat split; f_equal; f_equal; apply map_eq; intros p;
    rewrite ?lookup_insert, ?lookup_delete, ?lookup_insert, ?lookup_delete;
    repeat case_decide; congruence.
Qed.

(** X5. A placement makes the board forget whatever was done at the
    same coordinate just before: placing after a placement or after a
    removal there leaves the board that the last placement alone
    leaves. *)
Theorem X5_place_token_absorbs b x y symbol0 symbol :
  (_ <- Board.place_token x y symbol0 ;; Board.place_token x y symbol) b
    = Board.place_token x y symbol b
  ∧
  (_ <- Board.remove_token x y ;; Board.place_token x y symbol) b
    = Board.place_token x y symbol b.
Proof.
  rewrite place_then_place, remove_then_place, place_token_eq.
  split; f_equal; f_equal.
  - apply insert_insert_eq.
  - apply insert_delete_eq.
Qed.

(** X6. The number of tokens on the board grows by one when a token is
    placed on a free cell and stays when the cell was taken; it shrinks
    by one when a token is removed and stays when there was none. *)
Theorem X6_token_count b x y symbol :
  token_count (Board.place_token x y symbol b).2 =
    (if bool_decide (is_Some (Board.positions b !! (x, y)))
     then token_count b else S (token_count b)) ∧
  token_count (Board.remove_token x y b).2 =
    (if bool_decide (is_Some (Board.positions b !! (x, y)))
     then pred (token_count b) else token_count b).
Proof.
  unfold token_count, dict_keys.
  rewrite place_token_eq, remove_token_eq. cbn [snd Board.positions
    Board.set_positions].
  rewrite !length_fmap, !length_map_to_list.
  split; case_bool_decide as Hp.
  - destruct Hp as [tok Htok]. by erewrite map_size_insert_Some.
  - apply eq_None_not_Some in Hp. by rewrite map_size_insert_None.
  - destruct Hp as [tok Htok]. by erewrite map_size_delete_Some.
  - apply eq_None_not_Some in Hp. by rewrite map_size_delete_None.
Qed.

End BoardAlgebra.

(** ** What [__str__] prints and when it raises *)

Section RenderingCases.
Implicit Types (b : Board.t) (output : string).

Lemma string_length_app (s1 s2 : string) :
  String.length (s1 ++ s2) = (String.length s1 + String.length s2)%nat.
Proof.
  induction s1 as [|a s1 IH]; [done|].
  change (S (String.length (s1 ++ s2))
          = S (String.length s1 + String.length s2)).
  by rewrite IH.
Qed.

Lemma forallb_agree {A} (f g : A → bool) (l : list A) :
  (∀ a, a ∈ l → f a = g a) → forallb f l = forallb g l.
Proof.
  induction l as [|a l IH]; intros Hfg; [done|]. cbn [forallb].
  rewrite (Hfg a) by apply list_elem_of_here.
  rewrite IH; [done|]. intros a' Ha'. apply Hfg. by apply list_elem_of_further.
Qed.

Lemma fmap_agree {A B} (f g : A → B) (l : list A) :
  (∀ a, a ∈ l → f a = g a) → f <$> l = g <$> l.
Proof.
  induction l as [|a l IH]; intros Hfg; [done|]. rewrite !fmap_cons.
  rewrite (Hfg a) by apply list_elem_of_here.
  rewrite IH; [done|]. intros a' Ha'. apply Hfg. by apply list_elem_of_further.
Qed.

Lemma length_join_fmap {A} (f : A → string) (l : list A) (n : nat) :
  (∀ a, a ∈ l → String.length (f a) = n) →
  String.length (join (f <$> l)) = (length l * n)%nat.
Proof.
  induction l as [|a l IH]; intros Hf; [done|].
  rewrite fmap_cons, join_cons, string_length_app.
  rewrite (Hf a) by apply list_elem_of_here.
  rewrite IH; [done|]. intros a' Ha'. apply Hf. by apply list_elem_of_further.
Qed.

(** One cell: printed, or a [TypeError] for a symbol that is not a
    string.  The board is never changed. *)
Lemma str_cell_cases b row column output :
  Board.str_cell row column output b =
    if cell_ok b row column
    then (Ok (output ++ render_cell_spec b row column), b)
    else (Raise TypeError, b).
Proof.
  unfold Board.str_cell, cell_ok, render_cell_spec, bind, get_self.
  case_bool_decide as Hin.
  - apply elem_of_dom in Hin as [tok Htok].
    unfold getitem. rewrite Htok. unfold ret.
    by destruct (Token.value tok).
  - apply not_elem_of_dom in Hin. by rewrite Hin.
Qed.

Lemma str_columns_cases b row (columns : list Z) : ∀ output,
  Board.str_columns row columns output b =
    if forallb (cell_ok b row) columns
    then (Ok (output ++ join (render_cell_spec b row <$> columns)), b)
    else (Raise TypeError, b).
Proof.
  induction columns as [|column columns IH]; intros output.
  - cbn. by rewrite string_app_nil_r.
  - cbn [Board.str_columns forallb]. unfold bind.
    rewrite str_cell_cases.
    destruct (cell_ok b row column); [|done]. cbn [andb].
    rewrite IH, fmap_cons, join_cons.
    by rewrite string_app_assoc.
Qed.

Lemma str_rows_cases b (w : Z) (rows : list Z) : ∀ output,
  Board.width b = VInt w →
  Board.str_rows rows output b =
    if forallb (λ row, forallb (cell_ok b row) (seqZ 0 w)) rows
    then (Ok (output ++ join (render_row_spec b <$> rows)), b)
    else (Raise TypeError, b).
Proof.
  induction rows as [|row rows IH]; intros output Ew.
  - cbn. by rewrite string_app_nil_r.
  - cbn [Board.str_rows forallb]. unfold bind, get_self.
    rewrite Ew. cbn [Board.range]. unfold ret at 1.
    rewrite str_columns_cases.
    destruct (forallb (cell_ok b row) (seqZ 0 w)); [|done]. cbn [andb].
    rewrite IH by done. rewrite fmap_cons, join_cons.
    unfold render_row_spec at 2. rewrite Ew. cbn [int_of].
    by rewrite !string_app_assoc.
Qed.

Lemma str_cases b :
  is_int (Board.width b) → is_int (Board.height b) →
  Board.__str__ b =
    if window_ok b then (Ok (render_spec b), b) else (Raise TypeError, b).
Proof.
  intros Hw Hh. unfold Board.__str__, window_ok, render_spec, bind, get_self.
  destruct (Board.width b) as [|w|] eqn:Ew; try done.
  destruct (Board.height b) as [|h|] eqn:Eh; try done.
  cbn [Board.range int_of]. unfold ret at 1.
  by rewrite (str_rows_cases b w).
Qed.

(** Two boards of the same extent that agree on the cells in view are
    printed alike. *)
Lemma str_agree b b' (w h : Z) :
  Board.width b = VInt w → Board.height b = VInt h →
  Board.width b' = VInt w → Board.height b' = VInt h →
  (∀ p, visible w h p = true →
        Board.positions b' !! p = Board.positions b !! p) →
  (Board.__str__ b').1 = (Board.__str__ b).1.
Proof.
  intros Ew Eh Ew' Eh' Hagree.
  assert (Hcell : ∀ row column,
    row ∈ seqZ 0 h → column ∈ seqZ 0 w →
    Board.positions b' !! (VInt column, VInt row)
      = Board.positions b !! (VInt column, VInt row)).
  { intros row column Hrow%elem_of_seqZ Hcol%elem_of_seqZ.
    apply Hagree. cbn [visible]. apply bool_decide_eq_true. lia. }
  rewrite !str_cases by (by rewrite ?Ew, ?Eh, ?Ew', ?Eh').
  unfold window_ok, render_spec. rewrite Ew, Eh, Ew', Eh'. cbn [int_of].
  rewrite (forallb_agree
             (λ row, forallb (cell_ok b' row) (seqZ 0 w))
             (λ row, forallb (cell_ok b row) (seqZ 0 w))).
  2:{ intros row Hrow. apply forallb_agree. intros column Hcol.
      unfold cell_ok. by rewrite Hcell. }
  rewrite (fmap_agree (render_row_spec b') (render_row_spec b)).
  2:{ intros row Hrow. unfold render_row_spec. rewrite Ew, Ew'. cbn [int_of].
      f_equal. f_equal. apply fmap_agree. intros column Hcol.
      unfold render_cell_spec. by rewrite Hcell. }
  by destruct (forallb _ _).
Qed.

Lemma seqZ_pos (m n : Z) :
  (0 < n)%Z → seqZ m n = m :: seqZ (Z.succ m) (Z.pred n).
Proof. intros Hn. by rewrite seqZ_cons. Qed.

Lemma forallb_false_elem {A} (f : A → bool) (l : list A) :
  forallb f l = false → ∃ a, a ∈ l ∧ f a = false.
Proof.
  induction l as [|a l IH]; [done|]. cbn [forallb].
  destruct (f a) eqn:Ha.
  - intros (a' & Hin & Ha')%IH. exists a'.
    split; [by apply list_elem_of_further | done].
  - intros _. exists a. split; [apply list_elem_of_here | done].
Qed.

Lemma forallb_true_elem {A} (f : A → bool) (l : list A) a :
  forallb f l = true → a ∈ l → f a = true.
Proof.
  induction l as [|a' l IH]; cbn [forallb].
  - by intros _ ?%elem_of_nil.
  - intros [Ha' Hl]%andb_prop [->|Hin]%elem_of_cons; auto.
Qed.

(** X7. On a board whose width and height are integers, [__str__]
    returns the row-major rendering when every token inside the extent
    holds a string, and raises [TypeError] when one of them does not;
    tokens outside the extent are not looked at.  The board is
    unchanged either way. *)
Theorem X7_str_raises_iff_visible_non_string b :
  is_int (Board.width b) → is_int (Board.height b) →
  let w := int_of (Board.width b) in
  let h := int_of (Board.height b) in
  (Board.__str__ b = (Ok (render_spec b), b) ∧
   ∀ p tok, visible w h p = true → Board.positions b !! p = Some tok →
            is_str (Token.value tok) = true)
  ∨
  (Board.__str__ b = (Raise TypeError, b) ∧
   ∃ p tok, visible w h p = true ∧ Board.positions b !! p = Some tok ∧
            is_str (Token.value tok) = false).
Proof.
  intros Hw Hh w h. rewrite str_cases by done.
  destruct (window_ok b) eqn:Hok; [left | right]; (split; [done|]).
  - intros [[|column|] [|row|]] tok Hvis Htok; try done.
    cbn [visible] in Hvis. apply bool_decide_eq_true in Hvis as [Hc Hr].
    unfold window_ok in Hok.
    apply (forallb_true_elem _ _ row) in Hok; [|apply elem_of_seqZ; lia].
    apply (forallb_true_elem _ _ column) in Hok;
      [|apply elem_of_seqZ; fold w; lia].
    unfold cell_ok in Hok. by rewrite Htok in Hok.
  - unfold window_ok in Hok.
    apply forallb_false_elem in Hok as (row & Hrow & Hok).
    apply forallb_false_elem in Hok as (column & Hcol & Hok).
    apply elem_of_seqZ in Hrow, Hcol. unfold cell_ok in Hok.
    destruct (Board.positions b !! (VInt column, VInt row)) as [tok|] eqn:Htok;
      [|done].
    exists (VInt column, VInt row), tok. split; [|done].
    cbn [visible]. apply bool_decide_eq_true. fold w h in Hrow, Hcol. lia.
Qed.

(** X8. [__str__] raises [TypeError] when the height is not an integer,
    and when the height is a positive integer and the width is not an
    integer. *)
Theorem X8_str_extent_type_error b :
  is_int (Board.height b) = false ∨
  (∃ h, Board.height b = VInt h ∧ (0 < h)%Z ∧
        is_int (Board.width b) = false) →
  Board.__str__ b = (Raise TypeError, b).
Proof.
  unfold Board.__str__, bind, get_self.
  intros [Hh|(h & Eh & Hpos & Hw)].
  - by destruct (Board.height b).
  - rewrite Eh. cbn [Board.range]. unfold ret at 1.
    rewrite seqZ_pos by done. cbn [Board.str_rows]. unfold bind, get_self.
    by destruct (Board.width b).
Qed.

(** X9. With a height of zero or less [__str__] returns the empty
    string, whatever the width and the tokens are: the width is not even
    required to be an integer. *)
Theorem X9_str_no_rows b (h : Z) :
  Board.height b = VInt h → (h ≤ 0)%Z →
  Board.__str__ b = (Ok EmptyString, b).
Proof.
  intros Eh Hh. unfold Board.__str__, bind, get_self.
  rewrite Eh. cbn [Board.range]. unfold ret at 1.
  by rewrite seqZ_nil.
Qed.

(** X10. With a width of zero or less every row is empty: [__str__]
    returns two line breaks per row, whatever the tokens are. *)
Theorem X10_str_no_columns b (w h : Z) :
  Board.width b = VInt w → Board.height b = VInt h → (w ≤ 0)%Z →
  Board.__str__ b = (Ok (join (replicate (Z.to_nat h) (nl ++ nl))), b).
Proof.
  intros Ew Eh Hw. rewrite str_cases by (by rewrite ?Ew, ?Eh).
  unfold window_ok, render_spec. rewrite Ew, Eh. cbn [int_of].
  rewrite (seqZ_nil 0 w) by done.
  rewrite (forallb_agree _ (λ _, true)) by done.
  rewrite (fmap_agree (render_row_spec b) (λ _, nl ++ nl)).
  2:{ intros row _. unfold render_row_spec. rewrite Ew. cbn [int_of].
      by rewrite (seqZ_nil 0 w). }
  rewrite <- (length_seqZ 0 h).
  assert (Htrue : ∀ l : list Z, forallb (λ _, true) l = true)
    by (induction l; done).
  rewrite Htrue. do 3 f_equal.
  generalize (seqZ 0 h). induction l as [|a l IH]; [done|].
  rewrite fmap_cons. cbn [length replicate]. by rewrite IH.
Qed.

(** X11. A token at an integer coordinate outside the extent never
    shows: placing one at [(cx, cy)] with [cx] or [cy] negative or not
    below the width or the height, or removing one there, leaves the
    result of [__str__] as it was. *)
Theorem X11_out_of_extent_invisible b (w h cx cy : Z) symbol :
  Board.width b = VInt w → Board.height b = VInt h →
  ¬ ((0 ≤ cx < w)%Z ∧ (0 ≤ cy < h)%Z) →
  (Board.__str__ (Board.place_token (VInt cx) (VInt cy) symbol b).2).1
    = (Board.__str__ b).1 ∧
  (Board.__str__ (Board.remove_token (VInt cx) (VInt cy) b).2).1
    = (Board.__str__ b).1.
Proof.
  intros Ew Eh Hout.
  assert (Hvis : visible w h (VInt cx, VInt cy) = false)
    by (by apply bool_decide_eq_false).
  rewrite place_token_eq, remove_token_eq. cbn [snd].
  split; apply (str_agree _ _ w h); try done; intros p Hp;
    rewrite lookup_set_positions.
  - apply lookup_insert_ne. congruence.
  - apply lookup_delete_ne. congruence.
Qed.

(** X12. When width and height are integers and every symbol is a
    single character, the text that [__str__] returns has
    [2 * width + 2] characters per row, [height] times. *)
Theorem X12_str_length b :
  is_int (Board.width b) → is_int (Board.height b) →
  map_Forall (λ _ t, is_char (Token.value t)) (Board.positions b) →
  ∃ output,
    Board.__str__ b = (Ok output, b) ∧
    String.length output =
      (Z.to_nat (int_of (Board.height b))
       * (2 * Z.to_nat (int_of (Board.width b)) + 2))%nat.
Proof.
  intros Hw Hh Hchar. exists (render_spec b). split.
  - apply str_refines_render_spec. repeat split; try done.
    intros p tok Htok. specialize (Hchar p tok Htok). cbn beta in *.
    by destruct (Token.value tok) as [| |[|a [|]]].
  - unfold render_spec.
    rewrite (length_join_fmap _ _
               (2 * Z.to_nat (int_of (Board.width b)) + 2)).
    { by rewrite length_seqZ. }
    intros row _. unfold render_row_spec.
    rewrite string_length_app.
    rewrite (length_join_fmap _ _ 2).
    { rewrite length_seqZ. change (String.length (nl ++ nl)) with 2%nat. lia. }
    intros column _. unfold render_cell_spec.
    destruct (Board.positions b !! (VInt column, VInt row)) as [tok|] eqn:Htok;
      [|done].
    specialize (Hchar _ tok Htok). cbn beta in Hchar.
    by destruct (Token.value tok) as [| |[|a [|]]].
Qed.

End RenderingCases.

(** ** Outcomes of [execute] *)

(** The four commands of the routing table, or a name outside it. *)
Ltac command_cases name Hout :=
  destruct (decide (name ∈ routing_names)) as [Hout|Hout];
  [ unfold routing_names in Hout;
    rewrite !elem_of_cons, elem_of_nil in Hout;
    destruct Hout as [->|[->|[->|[->|[]]]]]
  | ].

(** Both directions of "returns normally iff" once the outcome of
    [execute] is known: [Hin] says that the name is in the table. *)
Ltac returns_iff Hin :=
  cbn; split;
  [ first [ done
          | intros _; right; split; [done|];
            first [by left | right; by eexists] ]
  | first [ done
          | intros [Hout|[Hmiss [Hname|[b' Hsome]]]]; done ] ].

Section ExecuteOutcomes.
Implicit Types (app : App.t) (action : Action.t)
  (options : gmap string pyval) (name : string).

Lemma required_keys_unknown name :
  name ∉ routing_names → required_keys name = [].
Proof.
  intros Hout. unfold required_keys.
  rewrite bool_decide_eq_false_2.
  - by rewrite bool_decide_eq_false_2.
  - intros ->. apply Hout. unfold routing_names. rewrite !elem_of_cons. auto.
Qed.

Lemma required_keys_create_board :
  required_keys "create_board" = ["x"; "y"].
Proof. reflexivity. Qed.
Lemma required_keys_place_token :
  required_keys "place_token" = ["x"; "y"; "symbol"].
Proof. reflexivity. Qed.
Lemma required_keys_get_token :
  required_keys "get_token" = ["x"; "y"].
Proof. reflexivity. Qed.
Lemma required_keys_remove_token :
  required_keys "remove_token" = ["x"; "y"].
Proof. reflexivity. Qed.

(** X13. A call of [execute] that raises has changed nothing: the
    dispatcher and its board are as before the call. *)
Theorem X13_failed_execute_changes_nothing action app e :
  (App.execute action app).1 = Raise e →
  (App.execute action app).2 = app.
Proof.
  destruct action as [name options]. command_cases name Hout.
  - rewrite execute_create_board.
    by destruct (options !! "x"), (options !! "y").
  - rewrite execute_place_token. destruct (App.board app); [|done].
    by destruct (options !! "x"), (options !! "y"), (options !! "symbol").
  - rewrite execute_get_token. destruct (App.board app); [|done].
    by destruct (options !! "x"), (options !! "y").
  - rewrite execute_remove_token. destruct (App.board app); [|done].
    by destruct (options !! "x"), (options !! "y").
  - by rewrite execute_unknown.
Qed.

(** X14. With a payload whose [x] and [y], where present, are integers,
    [execute] raises in two ways only: the attribute error for
    [board], when [place_token], [get_token] or [remove_token] is sent
    to a dispatcher without a board; and the [KeyError] of the first
    payload key that its command lacks.  With such a payload it raises
    no [TypeError] and no [KeyError] for a coordinate. *)
Theorem X14_execute_raises_only name options app e :
  entry_is is_int options "x" = true →
  entry_is is_int options "y" = true →
  (App.execute (Action.mk name options) app).1 = Raise e →
  (e = AttributeError "board" ∧ App.board app = None ∧
   name ∈ ["place_token"; "get_token"; "remove_token"])
  ∨
  (∃ k, e = KeyError (KStr k) ∧
        first_missing (required_keys name) options = Some k ∧
        (name = "create_board" ∨ is_Some (App.board app))).
Proof.
  intros _ _. command_cases name Hout.
  - rewrite execute_create_board, required_keys_create_board.
    cbn [first_missing].
    destruct (options !! "x"), (options !! "y"); intros [= <-];
      right; eexists; eauto.
  - rewrite execute_place_token, required_keys_place_token.
    cbn [first_missing].
    destruct (App.board app).
    + destruct (options !! "x"), (options !! "y"), (options !! "symbol");
        intros [= <-]; right; eexists; (do 2 (split; [done|])); right; by eexists.
    + intros [= <-]. left. rewrite !elem_of_cons. auto 10.
  - rewrite execute_get_token, required_keys_get_token.
    cbn [first_missing].
    destruct (App.board app).
    + destruct (options !! "x"), (options !! "y");
        intros [= <-]; right; eexists; (do 2 (split; [done|])); right; by eexists.
    + intros [= <-]. left. rewrite !elem_of_cons. auto 10.
  - rewrite execute_remove_token, required_keys_remove_token.
    cbn [first_missing].
    destruct (App.board app).
    + destruct (options !! "x"), (options !! "y");
        intros [= <-]; right; eexists; (do 2 (split; [done|])); right; by eexists.
    + intros [= <-]. left. rewrite !elem_of_cons. auto 10.
  - by rewrite execute_unknown.
Qed.

(** X15. With a payload whose [x] and [y], where present, are integers,
    [execute] returns normally exactly when the name is outside the
    routing table, or when the payload has every key that the command
    reads and the command is [create_board] or a board exists. *)
Theorem X15_execute_returns_iff name options app :
  entry_is is_int options "x" = true →
  entry_is is_int options "y" = true →
  is_ok (App.execute (Action.mk name options) app).1 = true ↔
  name ∉ routing_names ∨
  (first_missing (required_keys name) options = None ∧
   (name = "create_board" ∨ is_Some (App.board app))).
Proof.
  intros _ _. command_cases name Hout.
  - rewrite execute_create_board, required_keys_create_board.
    cbn [first_missing].
    assert (Hin : "create_board" ∈ routing_names)
      by (unfold routing_names; rewrite !elem_of_cons; auto).
    destruct (options !! "x"), (options !! "y"); returns_iff Hin.
  - rewrite execute_place_token, required_keys_place_token.
    cbn [first_missing].
    assert (Hin : "place_token" ∈ routing_names)
      by (unfold routing_names; rewrite !elem_of_cons; auto).
    destruct (App.board app) as [b|];
      [destruct (options !! "x"), (options !! "y"), (options !! "symbol")|];
      returns_iff Hin.
  - rewrite execute_get_token, required_keys_get_token.
    cbn [first_missing].
    assert (Hin : "get_token" ∈ routing_names)
      by (unfold routing_names; rewrite !elem_of_cons; auto).
    destruct (App.board app) as [b|];
      [destruct (options !! "x"), (options !! "y")|];
      returns_iff Hin.
  - rewrite execute_remove_token, required_keys_remove_token.
    cbn [first_missing].
    assert (Hin : "remove_token" ∈ routing_names)
      by (unfold routing_names; rewrite !elem_of_cons; auto).
    destruct (App.board app) as [b|];
      [destruct (options !! "x"), (options !! "y")|];
      returns_iff Hin.
  - rewrite execute_unknown by done. cbn. split; auto.
Qed.

(** X16. Once the dispatcher has a board it keeps having one, whatever
    is executed; and only [create_board] changes width and height. *)
Theorem X16_board_persists action app b :
  App.board app = Some b →
  ∃ b', App.board (App.execute action app).2 = Some b' ∧
        (Action.name action ≠ "create_board" →
         Board.width b' = Board.width b ∧ Board.height b' = Board.height b).
Proof.
  intros Hb. destruct action as [name options]. cbn [Action.name].
  command_cases name Hout.
  - rewrite execute_create_board.
    destruct (options !! "x"), (options !! "y"); cbn [snd App.board];
      eexists; (split; [done|]); done.
  - rewrite execute_place_token, Hb.
    destruct (options !! "x"), (options !! "y"), (options !! "symbol");
      cbn [snd App.board]; eexists; (split; [done|]); done.
  - rewrite execute_get_token, Hb.
    destruct (options !! "x"), (options !! "y");
      cbn [snd App.board]; eexists; (split; [done|]); done.
  - rewrite execute_remove_token, Hb.
    destruct (options !! "x"), (options !! "y");
      cbn [snd App.board]; eexists; (split; [done|]); done.
  - rewrite execute_unknown by done. by exists b.
Qed.

(** X17. Only [create_board], [place_token] and [remove_token] can
    change the dispatcher: under every other name, [get_token]
    included, [execute] leaves it as it was. *)
Theorem X17_only_three_commands_mutate name options app :
  name ∉ ["create_board"; "place_token"; "remove_token"] →
  (App.execute (Action.mk name options) app).2 = app.
Proof.
  rewrite !not_elem_of_cons. intros (Hc & Hp & Hr & _).
  command_cases name Hout; try done.
  - rewrite execute_get_token. destruct (App.board app); [|done].
    by destruct (options !! "x"), (options !! "y").
  - by rewrite execute_unknown.
Qed.

(** X18. [execute] reads from the payload the keys of its command and
    nothing else: two payloads that agree on these keys give the same
    result and the same dispatcher. *)
Theorem X18_other_payload_keys_ignored name options options' app :
  (∀ k, k ∈ required_keys name → options !! k = options' !! k) →
  App.execute (Action.mk name options) app
    = App.execute (Action.mk name options') app.
Proof.
  intros Hagree. command_cases name Hout.
  - rewrite !execute_create_board.
    rewrite <- !Hagree; [done|..];
      rewrite required_keys_create_board, !elem_of_cons; auto.
  - rewrite !execute_place_token.
    rewrite <- !Hagree; [done|..];
      rewrite required_keys_place_token, !elem_of_cons; auto.
  - rewrite !execute_get_token.
    rewrite <- !Hagree; [done|..];
      rewrite required_keys_get_token, !elem_of_cons; auto.
  - rewrite !execute_remove_token.
    rewrite <- !Hagree; [done|..];
      rewrite required_keys_remove_token, !elem_of_cons; auto.
  - by rewrite !execute_unknown.
Qed.

(** X19. On a dispatcher with a board, for every coordinate and symbol:
    [place_token] returns [None], [get_token] with the same [x] and
    [y] then returns the symbol, [remove_token] returns [None], and
    [get_token] then returns [None]. *)
Theorem X19_place_get_remove_get app b options options' x y symbol :
  App.board app = Some b →
  options !! "x" = Some x → options !! "y" = Some y →
  options !! "symbol" = Some symbol →
  options' !! "x" = Some x → options' !! "y" = Some y →
  results_of
    [ Action.mk "place_token" options;
      Action.mk "get_token" options';
      Action.mk "remove_token" options';
      Action.mk "get_token" options' ] app
  = [ Ok (RVal VNone); Ok (RVal symbol); Ok (RVal VNone); Ok (RVal VNone) ].
Proof.
  intros Hb Hx Hy Hs Hx' Hy'. cbn [results_of].
  rewrite execute_place_token, Hb, Hx, Hy, Hs.
  rewrite execute_get_token. cbn [App.board]. rewrite Hx', Hy'.
  rewrite execute_remove_token. cbn [App.board]. rewrite Hx', Hy'.
  rewrite execute_get_token. cbn [App.board]. rewrite Hx', Hy'.
  rewrite !lookup_set_positions, lookup_insert_eq, lookup_delete_eq.
  done.
Qed.

Lemma typed_action_create_board options :
  typed_action (Action.mk "create_board" options)
    = entry_is is_int options "x" && entry_is is_int options "y".
Proof. reflexivity. Qed.

Lemma typed_action_place_token options :
  typed_action (Action.mk "place_token" options)
    = entry_is is_str options "symbol".
Proof. reflexivity. Qed.

(** A typed action keeps the board well typed. *)
Lemma typed_action_preserves action app :
  board_typed app → typed_action action = true →
  board_typed (App.execute action app).2.
Proof.
  intros Happ Htyped. destruct action as [name options].
  command_cases name Hout.
  - rewrite execute_create_board.
    rewrite typed_action_create_board in Htyped.
    apply andb_prop in Htyped as [Hx Hy]. unfold entry_is in Hx, Hy.
    destruct (options !! "x") as [w|], (options !! "y") as [h|]; try done.
    cbn in Hx, Hy. unfold board_typed. cbn [snd App.board].
    split; [by apply Is_true_true|]. split; [by apply Is_true_true|].
    apply map_Forall_empty.
  - rewrite execute_place_token.
    rewrite typed_action_place_token in Htyped. unfold entry_is in Htyped.
    unfold board_typed in *.
    destruct (App.board app) as [b|] eqn:Hb; [|cbn [snd]; by rewrite Hb].
    destruct Happ as (Hw & Hh & Htok).
    destruct (options !! "x"), (options !! "y"),
      (options !! "symbol") as [symbol|]; cbn [snd]; rewrite ?Hb; try done.
    cbn [App.board]. repeat split; try done.
    apply map_Forall_insert_2; [|done]. by apply Is_true_true.
  - rewrite execute_get_token. unfold board_typed in *.
    destruct (App.board app) as [b|] eqn:Hb; [|cbn [snd]; by rewrite Hb].
    destruct (options !! "x"), (options !! "y"); cbn [snd]; by rewrite Hb.
  - rewrite execute_remove_token. unfold board_typed in *.
    destruct (App.board app) as [b|] eqn:Hb; [|cbn [snd]; by rewrite Hb].
    destruct Happ as (Hw & Hh & Htok).
    destruct (options !! "x"), (options !! "y"); cbn [snd]; rewrite ?Hb;
      try done.
    cbn [App.board]. repeat split; try done.
    by apply map_Forall_delete.
  - by rewrite execute_unknown.
Qed.

Lemma typed_history_preserves history : ∀ app,
  board_typed app →
  Forall (λ action, typed_action action = true) history →
  board_typed (state_after history app).
Proof.
  unfold state_after.
  induction history as [|action history IH]; intros app Happ Hall; [done|].
  apply Forall_cons in Hall as [Haction Hall]. cbn [foldl].
  apply IH; [|done]. by apply typed_action_preserves.
Qed.

(** X20. After any sequence of typed actions (integer extents, string
    symbols), sent to a new dispatcher or to one whose board is well
    typed, [str(app.board)] raises the attribute error if there is
    still no board, and otherwise returns the rendering of the board:
    it raises no [TypeError], and changes nothing. *)
Theorem X20_typed_history_renders history app :
  board_typed app →
  Forall (λ action, typed_action action = true) history →
  let app' := state_after history app in
  str_board app' =
    match App.board app' with
    | Some b => (Ok (render_spec b), app')
    | None => (Raise (AttributeError "board"), app')
    end.
Proof.
  intros Happ Hall app'.
  assert (Htyped : board_typed app') by by apply typed_history_preserves.
  clearbody app'. destruct app' as [[b|]]; [|done].
  unfold board_typed in Htyped. cbn [App.board] in *.
  unfold str_board, App.get_board, App.on_board, bind, get_self.
  cbn [App.board]. unfold ret at 1.
  by rewrite str_refines_render_spec.
Qed.

End ExecuteOutcomes.

(** ** Concrete runs of the further properties *)

Lemma X1_witness :
  ∃ b1,
    Board.place_token (VInt 0) (VInt 0) (VStr "O") board_2x2_X
      = (Ok VNone, b1) ∧
    (Board.get_token (VInt 1) (VInt 0) b1).1
      = (Board.get_token (VInt 1) (VInt 0) board_2x2_X).1 ∧
    Board.width b1 = Board.width board_2x2_X ∧
    Board.height b1 = Board.height board_2x2_X.
Proof. apply X1_place_token_frame. discriminate. Defined.

Lemma X2_witness :
  (_ <- Board.place_token (VInt 3) (VInt 3) (VStr "X") ;;
   Board.remove_token (VInt 3) (VInt 3)) board_8x8
    = (Ok VNone, board_8x8).
Proof. apply X2_place_then_remove_restores. reflexivity. Defined.

Lemma X3_witness :
  (_ <- Board.remove_token (VInt 1) (VInt 0) ;;
   Board.place_token (VInt 1) (VInt 0) (VStr "X")) board_2x2_X
    = (Ok VNone, board_2x2_X).
Proof. apply X3_remove_then_place_restores. reflexivity. Defined.

Lemma X4_witness :
  (_ <- Board.place_token (VInt 0) (VInt 0) (VStr "X") ;;
   Board.place_token (VInt 1) (VInt 1) (VStr "O")) board_8x8
    = (_ <- Board.place_token (VInt 1) (VInt 1) (VStr "O") ;;
       Board.place_token (VInt 0) (VInt 0) (VStr "X")) board_8x8
  ∧
  (_ <- Board.place_token (VInt 0) (VInt 0) (VStr "X") ;;
   Board.remove_token (VInt 1) (VInt 1)) board_8x8
    = (_ <- Board.remove_token (VInt 1) (VInt 1) ;;
       Board.place_token (VInt 0) (VInt 0) (VStr "X")) board_8x8
  ∧
  (_ <- Board.remove_token (VInt 0) (VInt 0) ;;
   Board.remove_token (VInt 1) (VInt 1)) board_8x8
    = (_ <- Board.remove_token (VInt 1) (VInt 1) ;;
       Board.remove_token (VInt 0) (VInt 0)) board_8x8.
Proof.
  apply (X4_distinct_coordinates_commute board_8x8
           (VInt 0) (VInt 0) (VInt 1) (VInt 1) (VStr "X") (VStr "O")).
  discriminate.
Defined.

Lemma X7_witness :
  (Board.__str__ board_2x2_X = (Ok (render_spec board_2x2_X), board_2x2_X) ∧
   ∀ p tok, visible 2 2 p = true →
            Board.positions board_2x2_X !! p = Some tok →
            is_str (Token.value tok) = true)
  ∨
  (Board.__str__ board_2x2_X = (Raise TypeError, board_2x2_X) ∧
   ∃ p tok, visible 2 2 p = true ∧
            Board.positions board_2x2_X !! p = Some tok ∧
            is_str (Token.value tok) = false).
Proof. exact (X7_str_raises_iff_visible_non_string board_2x2_X I I). Defined.

Lemma X8_witness :
  Board.__str__ (Board.__init__ (VInt 2) (VStr "2"))
    = (Raise TypeError, Board.__init__ (VInt 2) (VStr "2")).
Proof. apply X8_str_extent_type_error. left. reflexivity. Defined.

Lemma X9_witness :
  Board.__str__ (Board.__init__ (VStr "wide") (VInt 0))
    = (Ok EmptyString, Board.__init__ (VStr "wide") (VInt 0)).
Proof. apply (X9_str_no_rows _ 0); [reflexivity | lia]. Defined.

Lemma X10_witness :
  Board.__str__ (Board.__init__ (VInt 0) (VInt 2))
    = (Ok (join (replicate (Z.to_nat 2) (nl ++ nl))),
       Board.__init__ (VInt 0) (VInt 2)).
Proof.
  apply (X10_str_no_columns _ 0 2); [reflexivity | reflexivity | lia].
Defined.

Lemma X11_witness :
  (Board.__str__
     (Board.place_token (VInt 5) (VInt 5) (VStr "O") board_2x2_X).2).1
    = (Board.__str__ board_2x2_X).1 ∧
  (Board.__str__ (Board.remove_token (VInt 5) (VInt 5) board_2x2_X).2).1
    = (Board.__str__ board_2x2_X).1.
Proof.
  apply (X11_out_of_extent_invisible board_2x2_X 2 2 5 5);
    [reflexivity | reflexivity | lia].
Defined.

Lemma X12_witness :
  ∃ output,
    Board.__str__ board_2x2_X = (Ok output, board_2x2_X) ∧
    String.length output = 12%nat.
Proof.
  apply (X12_str_length board_2x2_X); [exact I | exact I |].
  apply map_Forall_insert_2; [exact I | apply map_Forall_empty].
Defined.

Lemma X13_witness :
  (App.execute (Action.mk "get_token" ∅) app_8x8).2 = app_8x8.
Proof.
  apply (X13_failed_execute_changes_nothing _ _ (KeyError (KStr "x"))).
  reflexivity.
Defined.

Lemma X14_witness :
  (AttributeError "board" = AttributeError "board" ∧
   App.board App.__init__ = None ∧
   "place_token" ∈ ["place_token"; "get_token"; "remove_token"])
  ∨
  (∃ k, AttributeError "board" = KeyError (KStr k) ∧
        first_missing (required_keys "place_token") ∅ = Some k ∧
        ("place_token" = "create_board" ∨ is_Some (App.board App.__init__))).
Proof. apply X14_execute_raises_only; reflexivity. Defined.

Lemma X15_witness :
  is_ok (App.execute (Action.mk "get_token" test_options) app_8x8).1 = true.
Proof.
  apply (proj2 (X15_execute_returns_iff "get_token" test_options app_8x8
                  eq_refl eq_refl)).
  right. split; [reflexivity|]. right. by eexists.
Defined.

Lemma X16_witness :
  ∃ b',
    App.board (App.execute (Action.mk "place_token" test_options) app_8x8).2
      = Some b' ∧
    ("place_token" ≠ "create_board" →
     Board.width b' = VInt 8 ∧ Board.height b' = VInt 8).
Proof.
  apply (X16_board_persists (Action.mk "place_token" test_options)
           app_8x8 board_8x8).
  reflexivity.
Defined.

Lemma X17_witness :
  (App.execute (Action.mk "get_token" test_options) app_8x8).2 = app_8x8.
Proof.
  apply X17_only_three_commands_mutate.
  rewrite !not_elem_of_cons. repeat split; try discriminate.
  apply not_elem_of_nil.
Defined.

Lemma X18_witness :
  App.execute (Action.mk "get_token" test_options) app_8x8
    = App.execute (Action.mk "get_token" xy_options) app_8x8.
Proof.
  apply X18_other_payload_keys_ignored. intros k Hk.
  rewrite required_keys_get_token, !elem_of_cons, elem_of_nil in Hk.
  destruct Hk as [->|[->|[]]]; reflexivity.
Defined.

Lemma X19_witness :
  results_of
    [ Action.mk "place_token" test_options;
      Action.mk "get_token" xy_options;
      Action.mk "remove_token" xy_options;
      Action.mk "get_token" xy_options ] app_8x8
  = [ Ok (RVal VNone); Ok (RVal (VStr "X"));
      Ok (RVal VNone); Ok (RVal VNone) ].
Proof.
  apply (X19_place_get_remove_get app_8x8 board_8x8 test_options xy_options
           (VInt 3) (VInt 3) (VStr "X")); reflexivity.
Defined.

Lemma X20_witness :
  str_board (state_after small_history App.__init__)
    = (Ok (". X " ++ nl ++ nl ++ ". . " ++ nl ++ nl),
       App.mk (Some board_2x2_X)).
Proof.
  assert (Htyped : Forall (λ action, typed_action action = true)
                     small_history) by (repeat constructor).
  rewrite (X20_typed_history_renders small_history App.__init__ I Htyped).
  reflexivity.
Defined.
